(** * Progress logging utilities: a shallow embedding of
      [graphrag/logger/progress.py] and its specification.

    The Python module has a dataclass [Progress], a class [ProgressTicker]
    with the methods [__init__], [__call__] and [done], the factory
    [progress_ticker] and the generator function [progress_iterable].

    Python integers are unbounded, hence [Z].  The effects of the module are
    the mutation of the ticker's counter, the calls to [logger.info], the calls
    to the user's callback (which may raise) and the consumption of iterator
    objects; they are modelled by explicit state passing over a [World] in a
    small state-and-exception monad. *)

From Stdlib Require Import ZArith List String Lia DecimalString Floats Sorted.
From stdpp Require Import base option list gmap strings.

Local Open Scope string_scope.
Local Open Scope Z_scope.
Local Open Scope list_scope.

(** ** The [Progress] dataclass (progress.py, lines 15-29) *)

(** Every field is optional and defaults to [None]. *)
Record Progress : Type := mkProgress {
  percent : option float;
  description : option string;
  total_items : option Z;
  completed_items : option Z
}.

(** ** Python's [str], [%s] and truthiness on the values that occur *)

(** [str(n)] for an [int]: decimal digits, a leading [-] for negatives. *)
Definition str_int (n : Z) : string :=
  NilZero.string_of_int (Z.to_int n).

(** [str(x)] for an [int | None]. *)
Definition str_opt_int (x : option Z) : string :=
  match x with
  | Some n => str_int n
  | None => "None"
  end.

(** What [%s] prints for a [str | None]. *)
Definition fmt_opt_str (x : option string) : string :=
  match x with
  | Some s => s
  | None => "None"
  end.

(** [bool(x)] for a [str | None]: [None] and the empty string are falsy. *)
Definition truthy (x : option string) : bool :=
  match x with
  | Some (String _ _) => true
  | _ => false
  end.

(** The message [logger.info("%s%s/%s", a, b, c)] formats. *)
Definition format_sss (a b c : string) : string :=
  String.append a (String.append b (String.append "/" c)).

(** ** Exceptions *)

(** What the module needs to know of the exceptions: which of them is
    [StopIteration], and the [RuntimeError] that Python raises in its place
    when a [StopIteration] is about to leave the body of a generator. *)
Class PyException (E : Type) : Type := {
  is_StopIteration : E -> bool;
  RuntimeError : E
}.

(** The exception that comes out of a generator when its body raised [e]
    (PEP 479). *)
Definition leaving_generator {E : Type} {PE : PyException E} (e : E) : E :=
  if is_StopIteration e then RuntimeError else e.

Section Model.

(** [T] is the element type of the iterables, [W] the part of the program
    state the user's callback reads and writes, [E] the type of exceptions. *)
Context {T W E : Type} {PE : PyException E}.

(** ** Observable events, in the order in which they happen *)
Inductive Event : Type :=
| LogInfo (msg : string)      (* a call [logger.info(...)], with its message *)
| Callback (p : Progress).    (* a call of the user's callback on [p] *)

(** A [ProgressHandler] is called with a snapshot; it may change its own
    state and either returns ([None]) or raises ([Some e]). *)
Definition ProgressHandler : Type := Progress -> W -> W * option E.

(** The world: the iterator objects that are alive, with what each has left
    to produce (an iterator that is absent has nothing left), the trace of
    events so far, and the callback's state. *)
Record World : Type := mkWorld {
  iterators : gmap nat (list T);
  trace : list Event;
  user : W
}.

(** ** The monad: state [S] that survives an exception *)
Inductive outcome (A : Type) : Type :=
| Returned (a : A)
| Raised (e : E).
Arguments Returned {A} a.
Arguments Raised {A} e.

Definition M (S A : Type) : Type := S -> outcome A * S.

Definition ret {S A} (a : A) : M S A := fun s => (Returned a, s).

Definition bind {S A B} (m : M S A) (k : A -> M S B) : M S B :=
  fun s =>
    match m s with
    | (Returned a, s') => k a s'
    | (Raised e, s') => (Raised e, s')
    end.

Definition gets {S A} (f : S -> A) : M S A := fun s => (Returned (f s), s).

Definition modify {S} (f : S -> S) : M S unit := fun s => (Returned tt, f s).

Definition raise {S A} (e : E) : M S A := fun s => (Raised e, s).

Notation "x <- m ;; k" := (bind m (fun x => k))
  (at level 100, m at next level, right associativity).
Notation "m ;;; k" := (bind m (fun _ => k))
  (at level 100, right associativity).

(** ** Primitive effects on the world *)

Definition emit (ev : Event) (w : World) : World :=
  mkWorld (iterators w) (trace w ++ [ev]) (user w).

(** [logger.info("%s%s/%s", a, b, c)]. *)
Definition logger_info (a b c : string) : M World unit :=
  modify (emit (LogInfo (format_sss a b c))).

(** Calling the callback: the call is recorded, the callback runs on its own
    state, and what it raises is raised. *)
Definition invoke (cb : ProgressHandler) (p : Progress) : M World unit :=
  fun w =>
    let w1 := emit (Callback p) w in
    let '(u, r) := cb p (user w1) in
    let w2 := mkWorld (iterators w1) (trace w1) u in
    match r with
    | None => (Returned tt, w2)
    | Some e => (Raised e, w2)
    end.

(** ** [ProgressTicker] (progress.py, lines 36-76) *)

Record ProgressTicker : Type := mkTicker {
  _callback : option ProgressHandler;
  _description : string;
  _num_total : Z;
  _num_complete : Z
}.

(** The methods run on the object and the world together. *)
Definition Self : Type := ProgressTicker * World.

Definition self_get {A} (f : ProgressTicker -> A) : M Self A :=
  gets (fun s => f (fst s)).

Definition in_world {A} (m : M World A) : M Self A :=
  fun s => let '(r, w) := m (snd s) in (r, (fst s, w)).

(** [__init__]: lines 44-50. *)
Definition __init__ (callback : option ProgressHandler) (num_total : Z)
    (description : string) : ProgressTicker :=
  {| _callback := callback;
     _description := description;
     _num_total := num_total;
     _num_complete := 0 |}.

(** [self._num_complete += num_ticks]. *)
Definition add_complete (num_ticks : Z) (t : ProgressTicker) : ProgressTicker :=
  {| _callback := _callback t;
     _description := _description t;
     _num_total := _num_total t;
     _num_complete := _num_complete t + num_ticks |}.

(** [__call__]: lines 52-65. *)
Definition __call__ (num_ticks : Z) : M Self unit :=
  modify (fun s => (add_complete num_ticks (fst s), snd s)) ;;;
  cb <- self_get _callback ;;
  match cb with
  | Some callback =>
      total <- self_get _num_total ;;
      complete <- self_get _num_complete ;;
      descr <- self_get _description ;;
      let p := {| percent := None;
                  description := Some descr;
                  total_items := Some total;
                  completed_items := Some complete |} in
      (if truthy (description p)
       then in_world (logger_info (fmt_opt_str (description p))
                                  (str_opt_int (completed_items p))
                                  (str_opt_int (total_items p)))
       else ret tt) ;;;
      in_world (invoke callback p)
  | None => ret tt
  end.

(** [done]: lines 67-76. *)
Definition done : M Self unit :=
  cb <- self_get _callback ;;
  match cb with
  | Some callback =>
      total <- self_get _num_total ;;
      descr <- self_get _description ;;
      in_world (invoke callback
                  {| percent := None;
                     description := Some descr;
                     total_items := Some total;
                     completed_items := Some total |})
  | None => ret tt
  end.

(** [progress_ticker]: lines 79-83. *)
Definition progress_ticker (callback : option ProgressHandler) (num_total : Z)
    (description : string) : ProgressTicker :=
  __init__ callback num_total description.

(** ** Iterables *)

(** What [progress_iterable] can be given: a container such as a list or a
    tuple, which starts a new pass each time it is iterated, or an iterator
    object (a generator, [iter(xs)], a file), which is its own iterator and
    can be passed over once.  The iterator object lives in the world, at
    address [l]: everyone who holds it sees the same remaining elements. *)
Inductive Iterable : Type :=
| Container (xs : list T)
| Iterator (l : nat).

(** What an iterator object has left (nothing if it is not in the world). *)
Definition remaining (l : nat) (w : World) : list T :=
  default [] (iterators w !! l).

Definition set_remaining (l : nat) (xs : list T) (w : World) : World :=
  mkWorld (<[l := xs]> (iterators w)) (trace w) (user w).

(** The iterator a [for] loop runs on: [iter(c)] of a container is a new
    object that nobody else holds, [iter(it)] of an iterator is [it]. *)
Inductive Cursor : Type :=
| Own (rest : list T)
| Shared (l : nat).

Definition py_iter (it : Iterable) : Cursor :=
  match it with
  | Container xs => Own xs
  | Iterator l => Shared l
  end.

(** [next(cursor)] on the iterator of such an iterable, which gives an
    element or stops and does not raise: the next element and the cursor
    after it, or [None] where Python raises [StopIteration].  Iterators
    that raise are [Faulty] inputs, below. *)
Definition py_next (c : Cursor) : M World (option (T * Cursor)) :=
  match c with
  | Own [] => ret None
  | Own (x :: rest) => ret (Some (x, Own rest))
  | Shared l =>
      xs <- gets (remaining l) ;;
      match xs with
      | [] => ret None
      | x :: rest => modify (set_remaining l rest) ;;; ret (Some (x, Shared l))
      end
  end.

(** [list(iterable)]: all the elements of a pass; an iterator is left
    exhausted. *)
Definition py_list (it : Iterable) : M World (list T) :=
  match it with
  | Container xs => ret xs
  | Iterator l =>
      xs <- gets (remaining l) ;;
      modify (set_remaining l []) ;;;
      ret xs
  end.

(** [len(xs)] of a list. *)
Definition py_len (xs : list T) : Z := Z.of_nat (length xs).

(** ** Inputs whose iterator raises *)

(** The iterables above are the ones whose iterators only ever give an
    element or stop.  An iterator object may also raise from its
    [__next__]: [Faulty l e] is the iterator object at [l] that gives the
    elements it has left and then, at the next request, raises [e] and is
    finished; it is finished when it is no longer in the world.  (An input
    that never stops has no pass to speak of and is not modelled.) *)
Inductive Input : Type :=
| Plain (it : Iterable)
| Faulty (l : nat) (e : E).

(** The iterator of the [for] loop over an input. *)
Inductive Feed : Type :=
| Steady (c : Cursor)
| Risky (l : nat) (e : E).

Definition input_iter (inp : Input) : Feed :=
  match inp with
  | Plain it => Steady (py_iter it)
  | Faulty l e => Risky l e
  end.

Definition finish_iterator (l : nat) (w : World) : World :=
  mkWorld (delete l (iterators w)) (trace w) (user w).

(** The last request to a faulty iterator: it is finished, and raises [e];
    when [e] is [StopIteration], that is how an iterator stops. *)
Definition last_request {A} (l : nat) (e : E) (stopped : A) : M World A :=
  modify (finish_iterator l) ;;;
  if is_StopIteration e then ret stopped else raise e.

(** [next] in the [for] loop: as [py_next], and what the iterator raises. *)
Definition feed_next (f : Feed) : M World (option (T * Feed)) :=
  match f with
  | Steady c =>
      r <- py_next c ;;
      ret (match r with
           | Some (x, c1) => Some (x, Steady c1)
           | None => None
           end)
  | Risky l e =>
      st <- gets (fun w => iterators w !! l) ;;
      match st with
      | None => ret None
      | Some [] => last_request l e None
      | Some (x :: rest) =>
          modify (set_remaining l rest) ;;; ret (Some (x, Risky l e))
      end
  end.

(** [list(input)]: as [py_list], and what the iterator raises, in which
    case the elements read so far are dropped with the list. *)
Definition input_list (inp : Input) : M World (list T) :=
  match inp with
  | Plain it => py_list it
  | Faulty l e =>
      st <- gets (fun w => iterators w !! l) ;;
      match st with
      | None => ret []
      | Some xs => last_request l e xs
      end
  end.

(** ** [progress_iterable] (progress.py, lines 86-100) *)

(** The function is a generator function: calling it runs nothing and
    returns a generator object, whose body runs at each [next] up to the
    following [yield].  The generator is either not started (it holds the
    arguments of the call), suspended at the [yield] of line 100 (it holds
    the locals [tick] and the iterator of the [for] loop), or finished. *)
Inductive Generator : Type :=
| Created (iterable : Input) (progress : option ProgressHandler)
          (num_total : option Z) (description : string)
| Suspended (tick : ProgressTicker) (cur : Feed)
| Finished.

Definition progress_iterable (iterable : Input)
    (progress : option ProgressHandler) (num_total : option Z)
    (description : string) : Generator :=
  Created iterable progress num_total description.

(** What a [next] on the generator gives. *)
Inductive Resume : Type :=
| Yield (item : T)
| StopIteration
| Error (e : E).

(** Lines 98-100, from the head of the loop to the next [yield].  An
    exception of the iterator or of the tick ends the generator and comes
    out of it as [leaving_generator] says. *)
Definition loop (tick : ProgressTicker) (cur : Feed) (w : World)
    : Resume * Generator * World :=
  match feed_next cur w with
  | (Returned None, w1) => (StopIteration, Finished, w1)
  | (Returned (Some (item, cur1)), w1) =>
      match __call__ 1 (tick, w1) with
      | (Returned _, (tick1, w2)) => (Yield item, Suspended tick1 cur1, w2)
      | (Raised e, (_, w2)) => (Error (leaving_generator e), Finished, w2)
      end
  | (Raised e, w1) => (Error (leaving_generator e), Finished, w1)
  end.

(** Lines 93-96, the part of the body before the loop. *)
Definition prologue (iterable : Input) (progress : option ProgressHandler)
    (num_total : option Z) (description : string)
    : M World (ProgressTicker * Feed) :=
  num_total1 <- match num_total with
                | None => xs <- input_list iterable ;; ret (py_len xs)
                | Some n => ret n
                end ;;
  let tick := __init__ progress num_total1 description in
  ret (tick, input_iter iterable).

(** [next(g)]. *)
Definition gen_next (g : Generator) (w : World) : Resume * Generator * World :=
  match g with
  | Created iterable progress num_total description =>
      match prologue iterable progress num_total description w with
      | (Returned (tick, cur), w1) => loop tick cur w1
      | (Raised e, w1) => (Error (leaving_generator e), Finished, w1)
      end
  | Suspended tick cur => loop tick cur w
  | Finished => (StopIteration, Finished, w)
  end.

(** ** The caller of the generator *)

(** How a pass over the generator ends. *)
Inductive Ending : Type :=
| Exhausted              (* the generator raised [StopIteration] *)
| Failed (e : E)         (* an exception came out of the generator *)
| Pending.               (* the caller stopped asking *)

(** [list(g)], or a [for] loop over [g] that collects the items, asking at
    most [fuel] times: the items in order, how the pass ended, and the
    generator and the world after it. *)
Fixpoint consume (fuel : nat) (g : Generator) (w : World)
    : list T * Ending * Generator * World :=
  match fuel with
  | O => ([], Pending, g, w)
  | S fuel1 =>
      match gen_next g w with
      | (Yield item, g1, w1) =>
          let '(items, e, g2, w2) := consume fuel1 g1 w1 in
          (item :: items, e, g2, w2)
      | (StopIteration, g1, w1) => ([], Exhausted, g1, w1)
      | (Error e, g1, w1) => ([], Failed e, g1, w1)
      end
  end.

(** ** A caller of the ticker *)

(** The calls a caller can make on a ticker. *)
Inductive Op : Type :=
| Increment (num_ticks : Z)
| Done.

Definition perform (op : Op) : M Self unit :=
  match op with
  | Increment n => __call__ n
  | Done => done
  end.

(** The caller makes the calls of [ops] one after the other and goes on
    after a call that raised (it caught the exception): the object and the
    world after all of them. *)
Fixpoint perform_all (ops : list Op) (s : Self) : Self :=
  match ops with
  | [] => s
  | op :: ops1 => perform_all ops1 (snd (perform op s))
  end.

(** The stored completed count after each call, in order. *)
Fixpoint counts (ops : list Op) (s : Self) : list Z :=
  match ops with
  | [] => []
  | op :: ops1 =>
      let s1 := snd (perform op s) in
      _num_complete (fst s1) :: counts ops1 s1
  end.

(** The snapshots the callback was called with, in order. *)
Fixpoint snapshots (tr : list Event) : list Progress :=
  match tr with
  | [] => []
  | Callback p :: tr1 => p :: snapshots tr1
  | LogInfo _ :: tr1 => snapshots tr1
  end.

(** The messages logged, in order. *)
Fixpoint messages (tr : list Event) : list string :=
  match tr with
  | [] => []
  | LogInfo m :: tr1 => m :: messages tr1
  | Callback _ :: tr1 => messages tr1
  end.

(** The snapshot [Progress(total_items=t, completed_items=c, description=d)]. *)
Definition snapshot (d : string) (t c : Z) : Progress :=
  {| percent := None;
     description := Some d;
     total_items := Some t;
     completed_items := Some c |}.

End Model.

Arguments Returned {E A} a.
Arguments Raised {E A} e.

(** An iterable is an input, a cursor is a feed. *)
#[warning="-uniform-inheritance"]
Coercion Plain : Iterable >-> Input.
#[warning="-uniform-inheritance"]
Coercion Steady : Cursor >-> Feed.

(** ** Predicates and sample values used in the statements *)

(** A call that does not take ticks back. *)
Definition forward (op : Op) : Prop :=
  match op with
  | Increment n => 0 <= n
  | Done => True
  end.

(** A callback that never raises (no callback at all never raises). *)
Definition quiet {W E : Type} (cb : option (@ProgressHandler W E)) : Prop :=
  match cb with
  | Some h => forall p u, snd (h p u) = None
  | None => True
  end.

(** What a pass over an iterable produces in a world. *)
Definition elements {T W : Type} (it : @Iterable T) (w : @World T W) : list T :=
  match it with
  | Container xs => xs
  | Iterator l => remaining l w
  end.

(** What a cursor has left in a world. *)
Definition pending {T W : Type} (c : @Cursor T) (w : @World T W) : list T :=
  match c with
  | Own rest => rest
  | Shared l => remaining l w
  end.

(** A snapshot as the ticker [t] builds them: no percent, the description
    and the total of [t], some completed count. *)
Definition built_by {W E : Type} (t : @ProgressTicker W E) (ev : Event) : Prop :=
  match ev with
  | Callback p =>
      percent p = None /\ description p = Some (_description t) /\
      total_items p = Some (_num_total t) /\ is_Some (completed_items p)
  | LogInfo _ => True
  end.

(** The ticker of a generator that is suspended in its loop. *)
Definition ticker_of {T W E : Type} (g : @Generator T W E)
    : option (@ProgressTicker W E) :=
  match g with
  | Suspended tick _ => Some tick
  | _ => None
  end.

(** The generator and the world after [k] calls of [next]. *)
Fixpoint advance {T W E : Type} {PE : PyException E} (k : nat)
    (g : @Generator T W E)
    (w : @World T W) : @Generator T W E * @World T W :=
  match k with
  | O => (g, w)
  | S k1 => let '(_, g1, w1) := gen_next g w in advance k1 g1 w1
  end.

(** What [logger.info] adds to the trace in [__call__]: a line when the
    description is not empty. *)
Definition log_line (d : string) (completed total : Z) : list Event :=
  if truthy (Some d)
  then [LogInfo (format_sss d (str_int completed) (str_int total))]
  else [].

(** The snapshots a ticker gives its callback over [k] calls [tick(1)]:
    none without a callback. *)
Definition reported {W E : Type} (t : @ProgressTicker W E) (k : nat)
    : list Progress :=
  match _callback t with
  | Some _ =>
      map (fun i => snapshot (_description t) (_num_total t)
                      (_num_complete t + Z.of_nat i)) (seq 1 k)
  | None => []
  end.

(** A callback that counts its calls and never raises, one that always
    raises, and two worlds: one without iterator objects, one where the
    iterator object [0] is [iter([1, 2, 3])]. *)
#[global] Instance string_exception : PyException string := {
  is_StopIteration s := String.eqb s "StopIteration";
  RuntimeError := "RuntimeError"
}.

Definition counting_handler : @ProgressHandler nat string :=
  fun _ calls => (S calls, None).

Definition failing_handler : @ProgressHandler nat string :=
  fun _ calls => (S calls, Some "boom").

(** A callback that raises [StopIteration]. *)
Definition stopping_handler : @ProgressHandler nat string :=
  fun _ calls => (S calls, Some "StopIteration").

Definition empty_world : @World Z nat := mkWorld ∅ [] O.

Definition iterator_world : @World Z nat :=
  mkWorld {[ O := [1; 2; 3] ]} [] O.

(** ** Further notions for the statements on sequences of calls and on
       partial passes *)

(** The ticks a sequence of calls adds up to; [done()] adds none. *)
Fixpoint total_ticks (ops : list Op) : Z :=
  match ops with
  | [] => 0
  | Increment n :: ops1 => n + total_ticks ops1
  | Done :: ops1 => total_ticks ops1
  end.

(** The events of one [tick(n)]: none without a callback; with one, the log
    line, if any, and then the call of the callback. *)
Definition call_events {W E : Type} (t : @ProgressTicker W E) (n : Z)
    : list Event :=
  match _callback t with
  | Some _ =>
      log_line (_description t) (_num_complete t + n) (_num_total t)
      ++ [Callback (snapshot (_description t) (_num_total t)
                      (_num_complete t + n))]
  | None => []
  end.

(** The cursor of a loop after [k] elements: the loop's own iterator has
    moved on, an iterator object is still that object. *)
Definition cursor_after {T : Type} (k : nat) (c : @Cursor T) : @Cursor T :=
  match c with
  | Own rest => Own (drop k rest)
  | Shared l => Shared l
  end.

(** The calls of the callback that ended a pass: one when the pass ended by
    an exception, which in this module only a callback raises. *)
Definition failures {E : Type} (e : @Ending E) : nat :=
  match e with
  | Failed _ => 1
  | _ => 0
  end.

(** The parts of what a pass gives: the items, how it ended, and the
    generator and the world after it. *)
Definition yielded {T W E : Type}
    (r : list T * @Ending E * @Generator T W E * @World T W) : list T :=
  fst (fst (fst r)).

Definition ending_of {T W E : Type}
    (r : list T * @Ending E * @Generator T W E * @World T W) : @Ending E :=
  snd (fst (fst r)).

Definition generator_of {T W E : Type}
    (r : list T * @Ending E * @Generator T W E * @World T W)
    : @Generator T W E :=
  snd (fst r).

Definition world_of {T W E : Type}
    (r : list T * @Ending E * @Generator T W E * @World T W) : @World T W :=
  snd r.

(** The total the ticker of the generator is made with: the one given, or
    the number of elements [list] finds. *)
Definition ticker_total {T W : Type} (num_total : option Z)
    (it : @Iterable T) (w : @World T W) : Z :=
  match num_total with
  | Some n => n
  | None => Z.of_nat (length (elements it w))
  end.

(** * Properties of the ticker *)

Section TickerProperties.

Context {T W E : Type}.
Implicit Types (cb : @ProgressHandler W E) (w : @World T W) (d : string).
Implicit Types (t : @ProgressTicker W E) (s : @Self T W E).

(** [__call__] without a callback. *)
Lemma call_no_callback d (total c n : Z) w :
  __call__ n (mkTicker (E:=E) None d total c, w)
  = (Returned tt, (mkTicker None d total (c + n), w)).
Proof. reflexivity. Qed.

(** [__call__] with a callback. *)
Lemma call_with_callback cb d (total c n : Z) w :
  __call__ n (mkTicker (Some cb) d total c, w)
  = (match snd (cb (snapshot d total (c + n)) (user w)) with
     | None => Returned tt
     | Some e => Raised e
     end,
     (mkTicker (Some cb) d total (c + n),
      mkWorld (iterators w)
              (trace w ++ log_line d (c + n) total
                       ++ [Callback (snapshot d total (c + n))])
              (fst (cb (snapshot d total (c + n)) (user w))))).
Proof.
  unfold __call__, bind, modify, self_get, gets, in_world, invoke, log_line,
    logger_info, modify, ret, snapshot.
  cbn [fst snd description total_items completed_items _callback
       _num_total _num_complete _description add_complete
       fmt_opt_str str_opt_int].
  destruct (truthy (Some d)); cbn [emit trace user iterators fst snd];
    destruct (cb _ (user w)) as [u [e|]]; cbn [fst snd];
    rewrite <- ?app_assoc, ?app_nil_l; reflexivity.
Qed.

(** [done] without a callback. *)
Lemma done_no_callback d (total c : Z) w :
  done (mkTicker (E:=E) None d total c, w)
  = (Returned tt, (mkTicker None d total c, w)).
Proof. reflexivity. Qed.

(** [done] with a callback. *)
Lemma done_with_callback cb d (total c : Z) w :
  done (mkTicker (Some cb) d total c, w)
  = (match snd (cb (snapshot d total total) (user w)) with
     | None => Returned tt
     | Some e => Raised e
     end,
     (mkTicker (Some cb) d total c,
      mkWorld (iterators w)
              (trace w ++ [Callback (snapshot d total total)])
              (fst (cb (snapshot d total total) (user w))))).
Proof.
  unfold done, bind, self_get, gets, in_world, invoke, snapshot.
  cbn [fst snd _callback _num_total _description emit trace user iterators].
  destruct (cb _ (user w)) as [u [e|]]; reflexivity.
Qed.

Lemma snapshots_app (tr1 tr2 : list Event) :
  snapshots (tr1 ++ tr2) = snapshots tr1 ++ snapshots tr2.
Proof.
  induction tr1 as [|[m|p] tr1 IH]; cbn [snapshots app]; [done|done|].
  by rewrite IH.
Qed.

Lemma messages_app (tr1 tr2 : list Event) :
  messages (tr1 ++ tr2) = messages tr1 ++ messages tr2.
Proof.
  induction tr1 as [|[m|p] tr1 IH]; cbn [messages app]; [done| |done].
  by rewrite IH.
Qed.

Lemma snapshots_log_line d (c total : Z) : snapshots (log_line d c total) = [].
Proof. unfold log_line. by destruct (truthy (Some d)). Qed.

(** The ticker after a call: only the counter moves. *)
Lemma perform_ticker op t w :
  fst (snd (perform op (t, w)))
  = match op with
    | Increment n => add_complete n t
    | Done => t
    end.
Proof.
  destruct t as [[cb|] d total c], op as [n|]; cbn [perform].
  - by rewrite call_with_callback.
  - by rewrite done_with_callback.
  - by rewrite call_no_callback.
  - by rewrite done_no_callback.
Qed.

(** [N] increments of one tick, from any count [c]. *)
Lemma increments_from cb d (total c : Z) w (N : nat) :
  let s := perform_all (repeat (Increment 1) N)
             (mkTicker (Some cb) d total c, w) in
  fst s = mkTicker (Some cb) d total (c + Z.of_nat N) /\
  snapshots (trace (snd s))
  = snapshots (trace w)
    ++ map (fun k => snapshot d total (c + Z.of_nat k)) (seq 1 N).
Proof.
  revert c w. induction N as [|N IH]; intros c w; cbn zeta.
  - cbn [repeat perform_all fst snd seq map]. rewrite app_nil_r.
    split; [f_equal; lia | reflexivity].
  - cbn [repeat perform_all perform]. rewrite call_with_callback.
    cbn [snd]. cbn zeta in IH.
    destruct (IH (c + 1) (mkWorld (iterators w)
                (trace w ++ log_line d (c + 1) total
                         ++ [Callback (snapshot d total (c + 1))])
                (fst (cb (snapshot d total (c + 1)) (user w)))))
      as [Ht Hs].
    split.
    + rewrite Ht. f_equal. lia.
    + rewrite Hs. cbn [trace].
      rewrite !snapshots_app, snapshots_log_line. cbn [snapshots app].
      rewrite <- app_assoc. cbn [app seq map]. f_equal.
      replace (c + Z.of_nat 1) with (c + 1) by lia. f_equal.
      rewrite <- (seq_shift N 1), map_map. apply map_ext. intros k.
      f_equal. lia.
Qed.

(** C2. A ticker made with total [total] and a callback, after [N] calls
    [tick(1)] (whatever the callback did, the caller went on): the callback
    was given, in order, the snapshots with [completed_items] 1, 2, ..., [N]
    and [total_items] [total], also where [N] is more than [total]; the
    stored count is [N]; and the call after these ends by giving the
    callback the snapshot with [completed_items = N + 1]. *)
Theorem increment_snapshot_counts cb d (total : Z) w (N : nat) :
  let s := perform_all (repeat (Increment 1) N)
             (__init__ (Some cb) total d, w) in
  snapshots (trace (snd s))
  = snapshots (trace w)
    ++ map (fun k => snapshot d total (Z.of_nat k)) (seq 1 N)
  /\ _num_complete (fst s) = Z.of_nat N
  /\ _num_total (fst s) = total
  /\ last (trace (snd (snd (__call__ 1 s))))
     = Some (Callback (snapshot d total (Z.of_nat N + 1))).
Proof.
  cbn zeta. unfold __init__.
  destruct (increments_from cb d total 0 w N) as [Ht Hs]. cbn zeta in Ht, Hs.
  destruct (perform_all _ _) as [t1 w1]. cbn [fst snd] in *. subst t1.
  cbn [_num_complete _num_total]. repeat split; [exact Hs | ].
  rewrite call_with_callback. cbn [snd trace].
  rewrite app_assoc. apply last_snoc.
Qed.

(** C3. With a callback, [done] calls it once, on the snapshot whose
    [completed_items] is the stored total and whose description is the
    stored one, whatever the running count [c] is; it logs nothing and
    leaves the ticker, and so the stored count, as it was.  [k] calls of
    [done] in a row call the callback [k] times on that same snapshot. *)
Theorem done_reports_total cb d (total c : Z) w (k : nat) :
  let t := mkTicker (Some cb) d total c in
  trace (snd (snd (done (t, w))))
  = trace w ++ [Callback (snapshot d total total)]
  /\ fst (snd (done (t, w))) = t
  /\ fst (perform_all (repeat Done k) (t, w)) = t
  /\ trace (snd (perform_all (repeat Done k) (t, w)))
     = trace w ++ repeat (Callback (snapshot d total total)) k.
Proof.
  cbn zeta. rewrite done_with_callback. cbn [fst snd trace].
  split; [reflexivity|]. split; [reflexivity|].
  revert w. induction k as [|k IH]; intros w.
  - cbn [repeat perform_all fst snd]. by rewrite app_nil_r.
  - cbn [repeat perform_all perform]. rewrite done_with_callback. cbn [snd].
    destruct (IH (mkWorld (iterators w)
                (trace w ++ [Callback (snapshot d total total)])
                (fst (cb (snapshot d total total) (user w))))) as [Ht Htr].
    split; [exact Ht|]. rewrite Htr. cbn [trace].
    by rewrite <- app_assoc.
Qed.

(** C4. With a callback, [tick(n)] raises [e] exactly when the callback,
    called on the snapshot of that increment, raises [e]; and [done()]
    raises [e] exactly when the callback, called on the snapshot of [done],
    raises [e]: what the callback raises comes out as it is, nothing is
    caught, retried or replaced. *)
Theorem callback_exception_propagates cb d (total c n : Z) w (e : E) :
  let t := mkTicker (Some cb) d total c in
  (fst (__call__ n (t, w)) = Raised e
   <-> snd (cb (snapshot d total (c + n)) (user w)) = Some e)
  /\ (fst (done (t, w)) = Raised e
      <-> snd (cb (snapshot d total total) (user w)) = Some e).
Proof.
  cbn zeta. rewrite call_with_callback, done_with_callback. cbn [fst].
  split.
  - destruct (snd (cb (snapshot d total (c + n)) (user w))) as [e1|];
      split; intros H; congruence.
  - destruct (snd (cb (snapshot d total total) (user w))) as [e1|];
      split; intros H; congruence.
Qed.

(** C6, as amended. On a ticker that has a callback and whose description
    [d] is not empty, [tick(n)] adds to the trace exactly one log line,
    [d] followed by the new count, a slash and the total, and then the call
    of the callback on the snapshot. *)
Theorem increment_logs_before_callback cb d (total c n : Z) w :
  d <> "" ->
  trace (snd (snd (__call__ n (mkTicker (Some cb) d total c, w))))
  = trace w
    ++ [LogInfo (String.append d
                  (String.append (str_int (c + n))
                     (String.append "/" (str_int total))));
        Callback (snapshot d total (c + n))].
Proof.
  intros Hd. rewrite call_with_callback. cbn [snd trace].
  unfold log_line, format_sss. destruct d as [|a d]; [congruence|].
  reflexivity.
Qed.

(** C7. Without a callback, [tick(n)] returns normally, adds [n] to the
    stored count and changes nothing else: no event is added to the trace
    and the callback's state is untouched; [done()] returns normally and
    changes nothing at all. *)
Theorem no_callback_is_silent d (total c n : Z) w :
  __call__ n (mkTicker (E:=E) None d total c, w)
  = (Returned tt, (mkTicker None d total (c + n), w))
  /\ done (mkTicker (E:=E) None d total c, w)
     = (Returned tt, (mkTicker None d total c, w)).
Proof. split; reflexivity. Qed.

Lemma counts_sorted (ops : list Op) t w :
  Forall forward ops -> Sorted Z.le (_num_complete t :: counts ops (t, w)).
Proof.
  revert t w. induction ops as [|op ops IH]; intros t w HF.
  - repeat constructor.
  - apply Forall_cons in HF as [Hop HF]. cbn [counts].
    pose proof (perform_ticker op t w) as Ht.
    destruct (snd (perform op (t, w))) as [t1 w1]. cbn [fst] in *.
    constructor; [by apply IH|]. constructor. subst t1.
    destruct op as [n|]; cbn [forward add_complete _num_complete] in *; lia.
Qed.

(** C8, as amended. The completed count is 0 at construction, and along any
    sequence of calls [tick(n)] with [n >= 0] and [done()], the stored count
    after a call is never less than before it. *)
Theorem completed_count_monotone (callback : option (@ProgressHandler W E))
    (total : Z) d w (ops : list Op) :
  Forall forward ops ->
  _num_complete (__init__ callback total d) = 0
  /\ Sorted Z.le
       (_num_complete (__init__ callback total d)
        :: counts ops (__init__ callback total d, w)).
Proof. intros HF. split; [reflexivity|]. by apply counts_sorted. Qed.

(** C9. What [tick(n)] or [done()] adds to the trace are events built by
    the ticker: every snapshot among them has [percent = None], the
    description and the total of the ticker and some completed count. *)
Theorem snapshots_have_no_percent (op : Op) t w :
  let tr := trace (snd (snd (perform op (t, w)))) in
  tr = trace w ++ drop (length (trace w)) tr
  /\ Forall (built_by t) (drop (length (trace w)) tr).
Proof.
  cbn zeta. destruct t as [[cb|] d total c], op as [n|]; cbn [perform].
  - rewrite call_with_callback. cbn [snd trace]. rewrite drop_app_length.
    split; [reflexivity|]. apply Forall_app. split.
    + unfold log_line. destruct (truthy (Some d)); repeat constructor.
    + repeat constructor. by eexists.
  - rewrite done_with_callback. cbn [snd trace]. rewrite drop_app_length.
    split; [reflexivity|]. repeat constructor. by eexists.
  - rewrite call_no_callback. cbn [snd]. rewrite drop_all, app_nil_r.
    split; [reflexivity | constructor].
  - rewrite done_no_callback. cbn [snd]. rewrite drop_all, app_nil_r.
    split; [reflexivity | constructor].
Qed.

End TickerProperties.

(** * Properties of the generator *)

Section GeneratorProperties.

Context {T W E : Type} {PE : PyException E}.
Implicit Types (w : @World T W) (d : string) (t : @ProgressTicker W E).
Implicit Types (cur : @Cursor T) (it : @Iterable T) (xs : list T).
Implicit Types (callback : option (@ProgressHandler W E)).

Lemma remaining_set_remaining (l : nat) xs w :
  remaining l (set_remaining l xs w) = xs.
Proof.
  unfold remaining, set_remaining. cbn [iterators].
  by rewrite lookup_insert_eq.
Qed.

Lemma pending_py_iter it w : pending (py_iter it) w = elements it w.
Proof. by destruct it. Qed.

(** [next] on a cursor that has nothing left. *)
Lemma py_next_stop cur w :
  pending cur w = [] -> py_next (E:=E) cur w = (Returned None, w).
Proof.
  destruct cur as [rest|l]; cbn [pending]; intros H.
  - by subst rest.
  - unfold py_next, bind, gets. by rewrite H.
Qed.

(** [next] on a cursor that has [x] next. *)
Lemma py_next_item cur w (x : T) xs :
  pending cur w = x :: xs ->
  exists cur1 w1,
    py_next (E:=E) cur w = (Returned (Some (x, cur1)), w1)
    /\ pending cur1 w1 = xs /\ trace w1 = trace w /\ user w1 = user w
    /\ forall (u : W) tr, pending cur1 (mkWorld (iterators w1) tr u) = xs.
Proof.
  destruct cur as [rest|l]; cbn [pending]; intros H.
  - subst rest. exists (Own xs), w. by repeat split.
  - exists (Shared l), (set_remaining l xs w).
    unfold py_next, bind, gets, modify, ret. rewrite H.
    cbn [pending]. rewrite remaining_set_remaining. repeat split.
    intros u tr. unfold remaining, set_remaining. cbn [iterators].
    by rewrite lookup_insert_eq.
Qed.

(** [tick(1)] with a callback that does not raise. *)
Lemma call_quiet t w :
  quiet (_callback t) ->
  exists u tr,
    __call__ 1 (t, w)
    = (Returned tt, (add_complete 1 t, mkWorld (iterators w) tr u))
    /\ snapshots tr = snapshots (trace w) ++ reported t 1.
Proof.
  destruct t as [[cb|] d total c]; cbn [quiet _callback]; intros Hq.
  - rewrite call_with_callback, Hq. eexists _, _. split; [reflexivity|].
    rewrite !snapshots_app, snapshots_log_line. reflexivity.
  - rewrite call_no_callback. exists (user w), (trace w).
    destruct w. cbn. by rewrite app_nil_r.
Qed.

Lemma reported_succ t (k : nat) :
  reported t (S k) = reported t 1 ++ reported (add_complete 1 t) k.
Proof.
  unfold reported. destruct t as [[cb|] d total c];
    cbn [_callback _description _num_total _num_complete add_complete];
    [|reflexivity].
  cbn [seq map app]. f_equal.
  rewrite <- (seq_shift k 1), map_map. apply map_ext. intros i.
  f_equal. lia.
Qed.

(** The loop on a cursor, in terms of [py_next]. *)
Lemma loop_steady t cur w :
  loop t (Steady cur) w
  = match py_next (E:=E) cur w with
    | (Returned None, w1) => (StopIteration, Finished, w1)
    | (Returned (Some (item, cur1)), w1) =>
        match __call__ 1 (t, w1) with
        | (Returned _, (t1, w2)) => (Yield item, Suspended t1 (Steady cur1), w2)
        | (Raised e, (_, w2)) => (Error (leaving_generator e), Finished, w2)
        end
    | (Raised e, w1) => (Error (leaving_generator e), Finished, w1)
    end.
Proof.
  unfold loop, feed_next, bind, ret.
  destruct (py_next cur w) as [[[[x c1]|]|e] w1]; reflexivity.
Qed.

(** The loop stops when the cursor has nothing left. *)
Lemma loop_stop t cur w :
  pending cur w = [] -> loop t cur w = (StopIteration, Finished, w).
Proof. intros H. rewrite loop_steady. by rewrite py_next_stop. Qed.

(** The loop ticks once and yields the next element. *)
Lemma loop_yield t cur w (x : T) xs :
  quiet (_callback t) -> pending cur w = x :: xs ->
  exists cur1 w1,
    loop t cur w = (Yield x, Suspended (add_complete 1 t) cur1, w1)
    /\ pending cur1 w1 = xs
    /\ snapshots (trace w1) = snapshots (trace w) ++ reported t 1.
Proof.
  intros Hq Hp.
  destruct (py_next_item cur w x xs Hp) as (cur1 & w1 & Hn & _ & Htr & _ & Hp1).
  destruct (call_quiet t w1 Hq) as (u & tr & Hc & Hs).
  exists cur1, (mkWorld (iterators w1) tr u).
  rewrite loop_steady, Hn, Hc. split; [reflexivity|].
  split; [apply Hp1|]. cbn [trace]. by rewrite Hs, Htr.
Qed.

(** A pass over a suspended generator whose callback does not raise. *)
Lemma consume_suspended xs : forall t cur w (fuel : nat),
  quiet (_callback t) -> pending cur w = xs -> (length xs < fuel)%nat ->
  exists w1,
    consume fuel (Suspended t cur) w = (xs, Exhausted, Finished, w1)
    /\ snapshots (trace w1) = snapshots (trace w) ++ reported t (length xs).
Proof.
  induction xs as [|x xs IH]; intros t cur w fuel Hq Hp Hf;
    (destruct fuel as [|fuel]; [cbn in Hf; lia|]); cbn [consume gen_next].
  - rewrite loop_stop by done. exists w. split; [reflexivity|].
    unfold reported. destruct (_callback t); cbn; by rewrite app_nil_r.
  - destruct (loop_yield t cur w x xs Hq Hp) as (cur1 & w1 & Hl & Hp1 & Hs1).
    rewrite Hl.
    destruct (IH (add_complete 1 t) cur1 w1 fuel) as (w2 & Hc & Hs2);
      [done | done | cbn in Hf; lia |].
    rewrite Hc. exists w2. split; [reflexivity|].
    rewrite Hs2, Hs1. cbn [length].
    by rewrite (reported_succ t (length xs)), <- app_assoc.
Qed.

(** The ticker of a suspended generator after [k] more elements. *)
Lemma advance_suspended (k : nat) : forall t cur w,
  quiet (_callback t) -> (k <= length (pending cur w))%nat ->
  exists cur1,
    fst (advance k (Suspended t cur) w)
    = Suspended (mkTicker (_callback t) (_description t) (_num_total t)
                   (_num_complete t + Z.of_nat k)) cur1.
Proof.
  induction k as [|k IH]; intros t cur w Hq Hk.
  - exists cur. cbn [advance fst]. destruct t. cbn. do 2 f_equal. lia.
  - destruct (pending cur w) as [|x xs] eqn:Hp; [cbn in Hk; lia|].
    destruct (loop_yield t cur w x xs Hq Hp) as (cur1 & w1 & Hl & Hp1 & _).
    cbn [advance gen_next]. rewrite Hl.
    destruct (IH (add_complete 1 t) cur1 w1) as (cur2 & Ha);
      [done | rewrite Hp1; cbn in Hk; lia |].
    exists cur2. rewrite Ha. cbn. do 2 f_equal. lia.
Qed.

(** The part before the loop, with an explicit total. *)
Lemma prologue_explicit it callback (n : Z) d w :
  prologue it callback (Some n) d w
  = (Returned (__init__ callback n d, Steady (py_iter it)), w).
Proof. reflexivity. Qed.

(** The part before the loop, without a total: the iterable is counted with
    [list], which leaves an iterator exhausted, and the loop is given the
    iterable itself. *)
Lemma prologue_counted it callback d w :
  prologue it callback None d w
  = (Returned (__init__ callback (py_len (elements it w)) d, Steady (py_iter it)),
     match it with
     | Container _ => w
     | Iterator l => set_remaining l [] w
     end).
Proof. by destruct it. Qed.

(** A pass over a generator that has not started. *)
Lemma consume_created it callback (nt : option Z) d w t cur w0 (fuel : nat) :
  prologue it callback nt d w = (Returned (t, Steady cur), w0) ->
  quiet (_callback t) -> (length (pending cur w0) < fuel)%nat ->
  exists w1,
    consume fuel (Created it callback nt d) w
    = (pending cur w0, Exhausted, Finished, w1)
    /\ snapshots (trace w1)
       = snapshots (trace w0) ++ reported t (length (pending cur w0)).
Proof.
  intros Hpro Hq Hf.
  destruct (consume_suspended (pending cur w0) t cur w0 fuel Hq eq_refl Hf)
    as (w1 & Hc & Hs).
  exists w1. split; [|exact Hs]. rewrite <- Hc.
  destruct fuel as [|fuel]; [lia|]. cbn [consume gen_next]. by rewrite Hpro.
Qed.

(** The ticker of the generator after its [k] first elements. *)
Lemma advance_created it callback (nt : option Z) d w t cur w0 (k : nat) :
  prologue it callback nt d w = (Returned (t, Steady cur), w0) ->
  quiet (_callback t) -> (1 <= k <= length (pending cur w0))%nat ->
  exists t1,
    ticker_of (fst (advance k (Created it callback nt d) w)) = Some t1
    /\ _num_total t1 = _num_total t
    /\ _num_complete t1 = _num_complete t + Z.of_nat k.
Proof.
  intros Hpro Hq [Hk1 Hk2].
  destruct (advance_suspended k t cur w0 Hq Hk2) as (cur1 & Ha).
  exists (mkTicker (_callback t) (_description t) (_num_total t)
            (_num_complete t + Z.of_nat k)).
  split; [|split; reflexivity].
  destruct k as [|k]; [lia|]. cbn [advance gen_next] in *.
  rewrite Hpro. destruct (loop t cur w0) as [[r g1] w1].
  by rewrite Ha.
Qed.

Lemma reported_total t (k : nat) :
  Forall (fun p => total_items p = Some (_num_total t)) (reported t k).
Proof.
  unfold reported. destruct (_callback t); [|constructor].
  apply Forall_map, Forall_forall. by intros i _.
Qed.

(** A container and no total: the pass gives every element, the ticker's
    total is the length, and the [k]-th element comes after [k] ticks. *)
Lemma progress_iterable_container xs callback d w (fuel : nat) :
  quiet callback -> (length xs < fuel)%nat ->
  exists w1,
    consume fuel (progress_iterable (Container xs) callback None d) w
    = (xs, Exhausted, Finished, w1)
    /\ snapshots (trace w1)
       = snapshots (trace w)
         ++ reported (__init__ callback (Z.of_nat (length xs)) d) (length xs)
    /\ forall k : nat, (1 <= k <= length xs)%nat ->
       exists t,
         ticker_of (fst (advance k
           (progress_iterable (Container xs) callback None d) w)) = Some t
         /\ _num_total t = Z.of_nat (length xs)
         /\ _num_complete t = Z.of_nat k.
Proof.
  intros Hq Hf. unfold progress_iterable.
  pose proof (prologue_counted (Container xs) callback d w) as Hpro.
  destruct (consume_created _ _ _ _ _ _ _ _ fuel Hpro Hq Hf) as (w1 & Hc & Hs).
  exists w1. split; [exact Hc|]. split; [exact Hs|].
  intros k Hk.
  destruct (advance_created _ _ _ _ _ _ _ _ k Hpro Hq Hk) as (t1 & H1 & H2 & H3).
  exists t1. by repeat split.
Qed.

(** C1, at the input on which the code departs from it.  The iterator
    object [0] is [iter([1, 2, 3])], a finite sequence of length 3; no total
    is given.  The counting pass leaves it empty, the loop runs on that same
    object, and the caller gets no element and the callback no call. *)
Theorem single_pass_input_yields_nothing :
  elements (Iterator O) iterator_world = [1; 2; 3]
  /\ consume 4 (progress_iterable (Iterator O) (Some counting_handler) None "")
       iterator_world
     = ([], Exhausted, Finished, mkWorld {[ O := [] ]} [] O).
Proof. split; vm_compute; reflexivity. Qed.

(** C5, as amended. With an explicit total [n] and a callback that does not
    raise, on an input whose iterator does not raise, a pass
    over the generator gives every element of the input, in order, whatever
    [n] is; every snapshot the callback is given has [total_items = n]; and
    after each of the elements the ticker of the generator has total [n]
    (and has counted the elements so far). *)
Theorem explicit_total_is_kept it callback (n : Z) d w (fuel : nat) :
  quiet callback -> (length (elements it w) < fuel)%nat ->
  exists w1,
    consume fuel (progress_iterable it callback (Some n) d) w
    = (elements it w, Exhausted, Finished, w1)
    /\ snapshots (trace w1)
       = snapshots (trace w)
         ++ reported (__init__ callback n d) (length (elements it w))
    /\ Forall (fun p => total_items p = Some n)
         (reported (__init__ callback n d) (length (elements it w)))
    /\ forall k : nat, (1 <= k <= length (elements it w))%nat ->
       exists t,
         ticker_of (fst (advance k
           (progress_iterable it callback (Some n) d) w)) = Some t
         /\ _num_total t = n
         /\ _num_complete t = Z.of_nat k.
Proof.
  intros Hq Hf. unfold progress_iterable.
  pose proof (prologue_explicit it callback n d w) as Hpro.
  rewrite <- (pending_py_iter it w) in *.
  destruct (consume_created _ _ _ _ _ _ _ _ fuel Hpro Hq Hf) as (w1 & Hc & Hs).
  exists w1. split; [exact Hc|]. split; [exact Hs|].
  split; [apply (reported_total (__init__ callback n d))|].
  intros k Hk.
  destruct (advance_created _ _ _ _ _ _ _ _ k Hpro Hq Hk) as (t1 & H1 & H2 & H3).
  exists t1. by repeat split.
Qed.

(** C10. Without a total, the part before the loop counts what [list] gives
    and hands the loop the input itself, not the list.  When the input is
    the iterator object [l], counting leaves it exhausted, and a pass over
    the generator gives no element, ends normally and adds nothing to the
    trace: the callback is not called. *)
Theorem omitted_total_exhausts_iterator (l : nat) callback d w (fuel : nat) :
  (forall it,
     fst (prologue it callback None d w)
     = Returned (__init__ callback (py_len (elements it w)) d, Steady (py_iter it)))
  /\ snd (prologue (Iterator l) callback None d w) = set_remaining l [] w
  /\ consume (S fuel) (progress_iterable (Iterator l) callback None d) w
     = ([], Exhausted, Finished, set_remaining l [] w)
  /\ trace (set_remaining l [] w) = trace w.
Proof.
  split; [intros it; by rewrite prologue_counted|].
  split; [by rewrite prologue_counted|].
  split; [|reflexivity].
  unfold progress_iterable. cbn [consume gen_next].
  rewrite prologue_counted. cbn [py_iter].
  rewrite loop_stop; [reflexivity|].
  cbn [pending]. apply remaining_set_remaining.
Qed.

End GeneratorProperties.

(** * The statements at concrete inputs *)

(** C5 at [iter([1, 2, 3])] with the explicit total 10 and a callback that
    counts its calls: the three elements come out. *)
Lemma explicit_total_is_kept_witness :
  quiet (Some counting_handler)
  /\ (length (elements (Iterator O) iterator_world) < 4)%nat
  /\ exists w1,
       consume 4 (progress_iterable (Iterator O) (Some counting_handler)
                    (Some 10) "") iterator_world
       = ([1; 2; 3], Exhausted, Finished, w1).
Proof.
  assert (Hq : quiet (Some counting_handler)) by (intros p u; reflexivity).
  assert (Hf : (length (elements (Iterator O) iterator_world) < 4)%nat)
    by (vm_compute; lia).
  split; [exact Hq|]. split; [exact Hf|].
  destruct (explicit_total_is_kept (Iterator O) (Some counting_handler) 10 ""
              iterator_world 4 Hq Hf) as (w1 & Hc & _).
  exists w1. exact Hc.
Defined.

(** C5 as the claim has it fails when the callback raises: on the list
    [[1; 2; 3]] with the explicit total 10 and a callback that raises, the
    pass gives no element and ends by the exception. *)
Lemma explicit_total_raising_callback_counterexample :
  let r := consume 4 (progress_iterable (Container [1; 2; 3])
                        (Some failing_handler) (Some 10) "") empty_world in
  elements (Container [1; 2; 3]) empty_world = [1; 2; 3]
  /\ yielded r = []
  /\ yielded r <> elements (Container [1; 2; 3]) empty_world
  /\ ending_of r = Failed "boom".
Proof. cbn zeta. repeat split; try reflexivity. vm_compute. discriminate. Qed.

(** C6 as the claim has it fails without a callback: the description is not
    empty, and [tick(1)] logs nothing. *)
Lemma log_line_needs_callback_counterexample :
  let s := (__init__ (W:=nat) (E:=string) None 3 "Loading ", empty_world) in
  _description (fst s) <> ""
  /\ ~ In (LogInfo "Loading 1/3") (trace (snd (snd (__call__ 1 s))))
  /\ messages (trace (snd (snd (__call__ 1 s)))) = [].
Proof.
  cbn zeta. split; [discriminate|]. split; [|reflexivity].
  vm_compute. intros [].
Qed.

(** C6, as amended, on the scenario of the specification: total 3, the
    description ["Loading "], the first increment. *)
Lemma increment_logs_before_callback_witness :
  "Loading " <> ""
  /\ trace (snd (snd (__call__ 1
       (mkTicker (Some counting_handler) "Loading " 3 0, empty_world))))
     = [LogInfo "Loading 1/3"; Callback (snapshot "Loading " 3 1)].
Proof.
  assert (Hd : "Loading " <> "") by discriminate.
  split; [exact Hd|].
  exact (increment_logs_before_callback (T:=Z) counting_handler "Loading "
           3 0 1 empty_world Hd).
Defined.

(** C8 as the claim has it fails on a negative tick: after [tick(-1)] on a
    new ticker the stored count is -1, less than the 0 before the call. *)
Lemma negative_tick_counterexample :
  let s := (__init__ (Some counting_handler) 3 "", empty_world) in
  _num_complete (fst s) = 0
  /\ _num_complete (fst (snd (perform (Increment (-1)) s))) = -1
  /\ ~ Sorted Z.le (_num_complete (fst s) :: counts [Increment (-1)] s).
Proof.
  cbn zeta. split; [reflexivity|]. split; [reflexivity|].
  vm_compute. intros H. inversion H as [|a l Hs Hr]; subst.
  inversion Hr as [|b l0 Hle]; subst. apply Hle. reflexivity.
Qed.

(** C8, as amended, on two increments around a [done]. *)
Lemma completed_count_monotone_witness :
  Forall forward [Increment 2; Done; Increment 0]
  /\ _num_complete (__init__ (Some counting_handler) 3 "") = 0
  /\ Sorted Z.le
       (_num_complete (__init__ (Some counting_handler) 3 "")
        :: counts [Increment 2; Done; Increment 0]
             (__init__ (Some counting_handler) 3 "", empty_world)).
Proof.
  assert (HF : Forall forward [Increment 2; Done; Increment 0])
    by (repeat constructor; cbn; lia).
  split; [exact HF|].
  exact (completed_count_monotone (Some counting_handler) 3 "" empty_world
           [Increment 2; Done; Increment 0] HF).
Defined.

(** * Sequences of calls on a ticker *)

Section TickerSequences.

Context {T W E : Type}.
Implicit Types (cb : @ProgressHandler W E) (w : @World T W) (d : string).
Implicit Types (t : @ProgressTicker W E) (ops : list Op).

Lemma add_complete_zero t : add_complete 0 t = t.
Proof. destruct t. unfold add_complete. cbn. f_equal. lia. Qed.

Lemma add_complete_add (n m : Z) t :
  add_complete m (add_complete n t) = add_complete (n + m) t.
Proof. destruct t. unfold add_complete. cbn. f_equal. lia. Qed.

Lemma perform_all_ticker ops : forall t w,
  fst (perform_all ops (t, w)) = add_complete (total_ticks ops) t.
Proof.
  induction ops as [|op ops IH]; intros t w; cbn [perform_all total_ticks fst].
  - by rewrite add_complete_zero.
  - pose proof (perform_ticker op t w) as Ht.
    destruct (snd (perform op (t, w))) as [t1 w1]. cbn [fst] in Ht.
    rewrite IH, Ht. destruct op as [n|].
    + apply add_complete_add.
    + reflexivity.
Qed.

(** The stored count of a ticker made by [progress_ticker], after any calls
    of [tick(n)] and [done()], of any sign and whether or not a callback
    raised: the sum of the ticks.  Callback, description and total are the
    ones the ticker was made with. *)
Theorem count_is_sum_of_ticks (callback : option (@ProgressHandler W E))
    (total : Z) d w ops :
  fst (perform_all ops (progress_ticker callback total d, w))
  = mkTicker callback d total (total_ticks ops).
Proof.
  rewrite perform_all_ticker. unfold progress_ticker, __init__, add_complete.
  reflexivity.
Qed.

Lemma perform_no_callback (op : Op) t w :
  _callback t = None ->
  exists t1, perform op (t, w) = (Returned tt, (t1, w)) /\ _callback t1 = None.
Proof.
  destruct t as [c d total n]. cbn [_callback]. intros ->.
  destruct op as [k|]; cbn [perform].
  - rewrite call_no_callback. by eexists.
  - rewrite done_no_callback. by eexists.
Qed.

(** Without a callback, no sequence of calls changes the world: nothing is
    logged, for any description, and the callback's state is as it was. *)
Theorem no_callback_sequence_is_silent d (total c : Z) w ops :
  snd (perform_all ops (mkTicker (E:=E) None d total c, w)) = w.
Proof.
  assert (H : forall t, _callback t = None -> snd (perform_all ops (t, w)) = w).
  { induction ops as [|op ops IH]; intros t Ht; cbn [perform_all snd].
    - reflexivity.
    - destruct (perform_no_callback op t w Ht) as (t1 & Hp & Ht1).
      rewrite Hp. cbn [snd]. by apply IH. }
  by apply H.
Qed.

Lemma flat_map_seq_shift {A : Type} (f : nat -> list A) (n : nat) :
  forall a, flat_map f (seq (S a) n) = flat_map (fun k => f (S k)) (seq a n).
Proof.
  induction n as [|n IH]; intros a; cbn [seq flat_map]; [done|].
  by rewrite IH.
Qed.

(** The trace of [N] calls [tick(1)] on a ticker with a callback. *)
Lemma increments_trace cb d (total : Z) (N : nat) : forall (c : Z) w,
  trace (snd (perform_all (repeat (Increment 1) N)
                (mkTicker (Some cb) d total c, w)))
  = trace w
    ++ flat_map (fun k => log_line d (c + Z.of_nat k) total
                          ++ [Callback (snapshot d total (c + Z.of_nat k))])
         (seq 1 N).
Proof.
  induction N as [|N IH]; intros c w.
  - cbn. by rewrite app_nil_r.
  - cbn [repeat perform_all perform]. rewrite call_with_callback. cbn [snd].
    rewrite IH. cbn [trace seq flat_map].
    rewrite (flat_map_seq_shift _ N 1).
    replace (c + Z.of_nat 1) with (c + 1) by lia.
    rewrite <- !app_assoc. do 3 f_equal.
    apply flat_map_ext. intros k.
    replace (c + 1 + Z.of_nat k) with (c + Z.of_nat (S k)) by lia.
    reflexivity.
Qed.

(** With the empty description, the default, [N] calls [tick(1)] log
    nothing: the trace grows by the [N] calls of the callback only. *)
Theorem empty_description_logs_nothing cb (total c : Z) w (N : nat) :
  trace (snd (perform_all (repeat (Increment 1) N)
                (mkTicker (Some cb) "" total c, w)))
  = trace w
    ++ map (fun k => Callback (snapshot "" total (c + Z.of_nat k))) (seq 1 N).
Proof.
  rewrite increments_trace. apply (f_equal (app (trace w))).
  induction (seq 1 N) as [|k ks IH]; cbn [flat_map map]; [done|].
  by rewrite IH.
Qed.

(** With a description that is not empty, [N] calls [tick(1)] add to the
    trace, for each count in turn, the log line of that count and then the
    call of the callback on the snapshot of that count. *)
Theorem log_lines_alternate_with_callbacks cb d (total c : Z) w (N : nat) :
  d <> "" ->
  trace (snd (perform_all (repeat (Increment 1) N)
                (mkTicker (Some cb) d total c, w)))
  = trace w
    ++ flat_map
         (fun k =>
            [LogInfo (String.append d
                        (String.append (str_int (c + Z.of_nat k))
                           (String.append "/" (str_int total))));
             Callback (snapshot d total (c + Z.of_nat k))])
         (seq 1 N).
Proof.
  intros Hd. rewrite increments_trace. apply (f_equal (app (trace w))).
  apply flat_map_ext. intros k. unfold log_line, format_sss.
  by destruct d as [|a d].
Qed.

(** When the callback raises in [tick(n)], the count has been moved all the
    same and the log line written: the exception comes out, the stored
    count is [c + n], and the trace has the log line, if any, and the call
    that raised. *)
Theorem raising_callback_keeps_count cb d (total c n : Z) w (e : E) :
  snd (cb (snapshot d total (c + n)) (user w)) = Some e ->
  fst (__call__ n (mkTicker (Some cb) d total c, w)) = Raised e
  /\ fst (snd (__call__ n (mkTicker (Some cb) d total c, w)))
     = mkTicker (Some cb) d total (c + n)
  /\ trace (snd (snd (__call__ n (mkTicker (Some cb) d total c, w))))
     = trace w ++ log_line d (c + n) total
       ++ [Callback (snapshot d total (c + n))].
Proof.
  intros He. rewrite call_with_callback, He. by repeat split.
Qed.

End TickerSequences.

(** * Passes over the generator, whatever the callback does *)

Section GeneratorPasses.

Context {T W E : Type} {PE : PyException E}.
Implicit Types (w : @World T W) (d : string) (t : @ProgressTicker W E).
Implicit Types (cur : @Cursor T) (it : @Iterable T) (xs : list T).
Implicit Types (callback : option (@ProgressHandler W E)).

Lemma cursor_after_zero cur : cursor_after 0 cur = cur.
Proof. by destruct cur. Qed.

Lemma cursor_after_succ (k : nat) cur :
  cursor_after k (cursor_after 1 cur) = cursor_after (S k) cur.
Proof. destruct cur as [rest|l]; cbn [cursor_after]; [|done]. by rewrite drop_drop. Qed.

(** [next] on a cursor that has [x] next, with the cursor it leaves. *)
Lemma py_next_cons cur w (x : T) xs :
  pending cur w = x :: xs ->
  exists w1,
    py_next (E:=E) cur w = (Returned (Some (x, cursor_after 1 cur)), w1)
    /\ trace w1 = trace w /\ user w1 = user w
    /\ forall (u : W) tr,
         pending (cursor_after 1 cur) (mkWorld (iterators w1) tr u) = xs.
Proof.
  destruct cur as [rest|l]; cbn [pending]; intros H.
  - subst rest. exists w. by repeat split.
  - exists (set_remaining l xs w).
    unfold py_next, bind, gets, modify, ret. rewrite H.
    repeat split. intros u tr. cbn [cursor_after pending].
    unfold remaining, set_remaining. cbn [iterators].
    by rewrite lookup_insert_eq.
Qed.

(** What [tick(n)] does to the object and the world, whatever the callback
    does. *)
Lemma call_any t w (n : Z) :
  exists (r : @outcome E unit) (u : W),
    __call__ n (t, w)
    = (r, (add_complete n t,
           mkWorld (iterators w) (trace w ++ call_events t n) u))
    /\ (quiet (_callback t) -> r = Returned tt)
    /\ (_callback t = None -> u = user w).
Proof.
  destruct t as [[cb|] d total c]; unfold call_events;
    cbn [_callback _description _num_total _num_complete quiet].
  - rewrite call_with_callback. eexists _, _. split; [reflexivity|].
    split; [|done]. intros Hq. by rewrite Hq.
  - rewrite call_no_callback. exists (Returned tt), (user w).
    rewrite app_nil_r. by destruct w.
Qed.

Lemma snapshots_call_events t : snapshots (call_events t 1) = reported t 1.
Proof.
  unfold call_events, reported. destruct (_callback t); [|done].
  by rewrite snapshots_app, snapshots_log_line.
Qed.

(** One turn of the loop on a cursor that has [x] next: a tick, and then
    either [x] is yielded or what the tick raised comes out. *)
Lemma loop_step t cur w (x : T) xs :
  pending cur w = x :: xs ->
  exists (r : @outcome E unit) w1,
    loop t cur w
    = match r with
      | Returned _ =>
          (Yield x, Suspended (add_complete 1 t) (cursor_after 1 cur), w1)
      | Raised e => (Error (leaving_generator e), Finished, w1)
      end
    /\ pending (cursor_after 1 cur) w1 = xs
    /\ trace w1 = trace w ++ call_events t 1
    /\ (quiet (_callback t) -> r = Returned tt)
    /\ (_callback t = None -> user w1 = user w).
Proof.
  intros Hp.
  destruct (py_next_cons cur w x xs Hp) as (w0 & Hn & Htr & Hu & Hp0).
  destruct (call_any t w0 1) as (r & u & Hc & Hq & Hnone).
  exists r, (mkWorld (iterators w0) (trace w0 ++ call_events t 1) u).
  rewrite loop_steady, Hn, Hc. split; [by destruct r|].
  split; [apply Hp0|]. cbn [trace user]. rewrite Htr.
  split; [done|]. split; [done|]. intros H. by rewrite Hnone.
Qed.

Lemma reported_zero t : reported t 0 = [].
Proof. unfold reported. by destruct (_callback t). Qed.

(** A pass over a suspended generator, for any callback and any number of
    requests. *)
Lemma consume_suspended_any (fuel : nat) : forall t cur w,
  let r := consume fuel (Suspended t cur) w in
  yielded r `prefix_of` pending cur w
  /\ snapshots (trace (world_of r))
     = snapshots (trace w)
       ++ reported t (length (yielded r) + failures (ending_of r))
  /\ (_callback t = None ->
      trace (world_of r) = trace w /\ user (world_of r) = user w).
Proof.
  induction fuel as [|fuel IH]; intros t cur w; cbn zeta.
  - cbn [consume yielded ending_of world_of fst snd length failures Nat.add].
    rewrite reported_zero, app_nil_r.
    split; [apply prefix_nil|]. by split.
  - cbn [consume gen_next]. destruct (pending cur w) as [|x xs] eqn:Hp.
    + rewrite loop_stop by done.
      cbn [yielded ending_of world_of fst snd length failures Nat.add].
      rewrite reported_zero, app_nil_r.
      split; [apply prefix_nil|]. by split.
    + destruct (loop_step t cur w x xs Hp) as (r & w1 & Hl & Hp1 & Htr & _ & Hu).
      rewrite Hl. destruct r as [[]|e].
      * specialize (IH (add_complete 1 t) (cursor_after 1 cur) w1).
        cbn zeta in IH.
        destruct (consume fuel _ w1) as [[[items en] g2] w2].
        unfold yielded, ending_of, world_of in *. cbn [fst snd] in *.
        destruct IH as (Hpre & Hs & Hnone). rewrite Hp1 in Hpre.
        split; [by apply prefix_cons|]. split.
        -- rewrite Hs, Htr, snapshots_app, snapshots_call_events.
           cbn [length Nat.add].
           by rewrite (reported_succ t (length items + failures en)),
             <- app_assoc.
        -- intros Hn. destruct (Hnone Hn) as [H1 H2].
           rewrite H1, H2, Htr, (Hu Hn). unfold call_events. rewrite Hn.
           by rewrite app_nil_r.
      * unfold yielded, ending_of, world_of. cbn [fst snd length failures Nat.add].
        split; [apply prefix_nil|]. split.
        -- by rewrite Htr, snapshots_app, snapshots_call_events.
        -- intros Hn. rewrite Htr, (Hu Hn). unfold call_events. rewrite Hn.
           by rewrite app_nil_r.
Qed.

(** The first [k] elements of a suspended generator whose callback does not
    raise: the caller stops there, the loop has taken no more. *)
Lemma consume_suspended_partial (k : nat) : forall t cur w,
  quiet (_callback t) -> (k <= length (pending cur w))%nat ->
  exists w1,
    consume k (Suspended t cur) w
    = (take k (pending cur w), Pending,
       Suspended (add_complete (Z.of_nat k) t) (cursor_after k cur), w1)
    /\ pending (cursor_after k cur) w1 = drop k (pending cur w).
Proof.
  induction k as [|k IH]; intros t cur w Hq Hk.
  - exists w. cbn [consume take drop Z.of_nat].
    by rewrite add_complete_zero, cursor_after_zero.
  - destruct (pending cur w) as [|x xs] eqn:Hp; [cbn in Hk; lia|].
    destruct (loop_step t cur w x xs Hp) as (r & w1 & Hl & Hp1 & _ & Hr & _).
    rewrite (Hr Hq) in Hl.
    destruct (IH (add_complete 1 t) (cursor_after 1 cur) w1) as (w2 & Hc & Hp2);
      [done | rewrite Hp1; cbn in Hk; lia |].
    exists w2. cbn [consume gen_next]. rewrite Hl, Hc, Hp1.
    rewrite add_complete_add, cursor_after_succ in *.
    replace (1 + Z.of_nat k) with (Z.of_nat (S k)) by lia.
    split; [reflexivity|]. by rewrite Hp2, Hp1.
Qed.

(** The part before the loop never raises and leaves the trace and the
    callback's state alone; with a total it changes nothing. *)
Lemma prologue_result it callback (nt : option Z) d w :
  exists w0,
    prologue it callback nt d w
    = (Returned (__init__ callback (ticker_total nt it w) d, Steady (py_iter it)), w0)
    /\ trace w0 = trace w /\ user w0 = user w
    /\ pending (py_iter it) w0 `prefix_of` elements it w
    /\ (is_Some nt -> w0 = w).
Proof.
  destruct nt as [n|].
  - exists w. rewrite prologue_explicit, pending_py_iter. by repeat split.
  - rewrite prologue_counted. eexists. split; [reflexivity|].
    split; [by destruct it|]. split; [by destruct it|].
    split; [|by intros [? ?]].
    destruct it as [xs|l]; cbn [py_iter pending elements]; [done|].
    rewrite remaining_set_remaining. apply prefix_nil.
Qed.

(** The first [next] runs the part before the loop and then the loop. *)
Lemma consume_created_eq it callback (nt : option Z) d w t cur w0 (fuel : nat) :
  prologue it callback nt d w = (Returned (t, Steady cur), w0) ->
  consume (S fuel) (Created it callback nt d) w
  = consume (S fuel) (Suspended t cur) w0.
Proof. intros H. cbn [consume gen_next]. by rewrite H. Qed.

(** The items a pass gives are the first elements of the input, in order:
    whatever the callback does, whatever total is or is not given and
    however often the caller asks, nothing is made up, repeated or
    reordered. *)
Theorem yielded_is_prefix it callback (nt : option Z) d w (fuel : nat) :
  yielded (consume fuel (progress_iterable it callback nt d) w)
  `prefix_of` elements it w.
Proof.
  unfold progress_iterable. destruct fuel as [|fuel]; [apply prefix_nil|].
  destruct (prologue_result it callback nt d w) as (w0 & Hpro & _ & _ & Hpre & _).
  rewrite (consume_created_eq _ _ _ _ _ _ _ _ fuel Hpro).
  destruct (consume_suspended_any (S fuel)
              (__init__ callback (ticker_total nt it w) d) (py_iter it) w0)
    as (H & _).
  by etrans.
Qed.

(** For an input whose iterator does not raise (a container, a
    well-behaved iterator), a pass can only end by an exception of the
    callback: the callback is called once for each item the pass gave, and
    once more when the pass ended by an exception. *)
Lemma one_callback_call_per_item it callback (nt : option Z) d w
    (fuel : nat) :
  let r := consume fuel (progress_iterable it callback nt d) w in
  snapshots (trace (world_of r))
  = snapshots (trace w)
    ++ reported (__init__ callback (ticker_total nt it w) d)
         (length (yielded r) + failures (ending_of r)).
Proof.
  cbn zeta. unfold progress_iterable. destruct fuel as [|fuel].
  - cbn [consume yielded ending_of world_of fst snd length failures Nat.add].
    by rewrite reported_zero, app_nil_r.
  - destruct (prologue_result it callback nt d w) as (w0 & Hpro & Htr & _).
    rewrite (consume_created_eq _ _ _ _ _ _ _ _ fuel Hpro).
    destruct (consume_suspended_any (S fuel)
                (__init__ callback (ticker_total nt it w) d) (py_iter it) w0)
      as (_ & H & _).
    by rewrite H, Htr.
Qed.


Lemma one_callback_call_per_item_aux it callback (n : Z) d w (fuel : nat) :
  let r := consume fuel (progress_iterable it callback (Some n) d) w in
  snapshots (trace (world_of r))
  = snapshots (trace w)
    ++ reported (__init__ callback n d)
         (length (yielded r) + failures (ending_of r)).
Proof.
  cbn zeta. unfold progress_iterable. destruct fuel as [|fuel].
  - cbn [consume yielded ending_of world_of fst snd length failures Nat.add].
    by rewrite reported_zero, app_nil_r.
  - rewrite (consume_created_eq _ _ _ _ _ _ _ _ fuel
               (prologue_explicit it callback n d w)).
    by destruct (consume_suspended_any (S fuel) (__init__ callback n d)
                   (py_iter it) w) as (_ & H & _).
Qed.

(** A caller that takes only [k] items gets the first [k] elements; the
    callback has been called [k] times; and an iterator given as input has
    lost these [k] elements and no more: the loop does not read ahead. *)
Theorem partial_pass_reads_no_further it callback (n : Z) d w (k : nat) :
  quiet callback -> (k <= length (elements it w))%nat ->
  let r := consume k (progress_iterable it callback (Some n) d) w in
  yielded r = take k (elements it w)
  /\ ending_of r = Pending
  /\ elements it (world_of r)
     = match it with
       | Container xs => xs
       | Iterator _ => drop k (elements it w)
       end
  /\ snapshots (trace (world_of r))
     = snapshots (trace w) ++ reported (__init__ callback n d) k.
Proof.
  intros Hq Hk. cbn zeta.
  pose proof (one_callback_call_per_item_aux it callback n d w k) as Hs.
  revert Hs. unfold progress_iterable. destruct k as [|k].
  - cbn [consume yielded ending_of world_of fst snd take drop].
    intros Hs. repeat split; [by destruct it | exact Hs].
  - rewrite (consume_created_eq _ _ _ _ _ _ _ _ k (prologue_explicit it callback n d w)).
    rewrite <- (pending_py_iter it w) in Hk.
    destruct (consume_suspended_partial (S k) (__init__ callback n d)
                (py_iter it) w Hq Hk) as (w1 & Hc & Hp).
    rewrite Hc. unfold yielded, ending_of, world_of. cbn [fst snd failures].
    rewrite pending_py_iter in *. rewrite length_take.
    replace (S k `min` length (elements it w) + 0)%nat with (S k) by lia.
    intros Hs. repeat split; [|exact Hs].
    destruct it as [xs|l]; [done|]. exact Hp.
Qed.

(** When the callback raises on the first element, the exception comes out
    of the generator, which is finished; no item was given; and an iterator
    given as input has lost that element: it was taken before the tick. *)
Theorem failing_callback_loses_item it (cb : @ProgressHandler W E) (n : Z) d w
    (fuel : nat) (x : T) xs (e : E) :
  elements it w = x :: xs ->
  snd (cb (snapshot d n 1) (user w)) = Some e ->
  let r := consume (S fuel) (progress_iterable it (Some cb) (Some n) d) w in
  yielded r = [] /\ ending_of r = Failed (leaving_generator e)
  /\ generator_of r = Finished
  /\ elements it (world_of r)
     = match it with
       | Container _ => x :: xs
       | Iterator _ => xs
       end.
Proof.
  intros Hel He. cbn zeta. unfold progress_iterable.
  cbn [consume gen_next]. rewrite prologue_explicit, loop_steady.
  rewrite <- (pending_py_iter it w) in Hel.
  destruct (py_next_cons (py_iter it) w x xs Hel) as (w0 & Hn & _ & Hu & Hp0).
  rewrite Hn. unfold __init__. rewrite call_with_callback, Hu.
  change (0 + 1) with 1. rewrite He.
  unfold yielded, ending_of, generator_of, world_of. cbn [fst snd].
  repeat split. destruct it as [ys|l]; cbn [elements].
  - by rewrite pending_py_iter in Hel.
  - exact (Hp0 (fst (cb (snapshot d n 1) (user w)))
             (trace w0 ++ log_line d 1 n ++ [Callback (snapshot d n 1)])).
Qed.


(** ** Inputs whose iterator raises *)

(** A request to the iterator of the loop logs nothing and calls nothing. *)
Lemma feed_next_trace (f : @Feed T E) w :
  trace (snd (feed_next f w)) = trace w.
Proof.
  destruct f as [c|l e]; unfold feed_next, bind, gets, ret.
  - destruct c as [[|x rest]|l]; cbn; [done|done|].
    unfold bind, gets, modify, ret. by destruct (remaining l w).
  - cbn. destruct (iterators w !! l) as [[|x rest]|]; cbn; [|done|done].
    unfold last_request, bind, modify, raise, ret.
    by destruct (is_StopIteration e).
Qed.

(** The calls of the callback over a pass on a suspended generator, for
    any iterator and any callback. *)
Lemma consume_feed_calls (fuel : nat) : forall t (f : @Feed T E) w,
  let r := consume fuel (Suspended t f) w in
  exists m : nat,
    snapshots (trace (world_of r)) = snapshots (trace w) ++ reported t m
    /\ (length (yielded r) <= m
        <= length (yielded r) + failures (ending_of r))%nat
    /\ (quiet (_callback t) -> m = length (yielded r)).
Proof.
  induction fuel as [|fuel IH]; intros t f w; cbn zeta.
  - exists O. cbn. rewrite reported_zero, app_nil_r. repeat split; lia.
  - cbn [consume gen_next]. unfold loop.
    pose proof (feed_next_trace f w) as Htr.
    destruct (feed_next f w) as [[[[x f1]|]|e] w1]; cbn [snd] in Htr.
    + destruct (call_any t w1 1) as (r & u & Hc & Hq & _). rewrite Hc.
      destruct r as [[]|e0].
      * specialize (IH (add_complete 1 t) f1
          (mkWorld (iterators w1) (trace w1 ++ call_events t 1) u)).
        cbn zeta in IH. destruct (consume fuel _ _) as [[[items en] g2] w2].
        unfold yielded, ending_of, world_of in *. cbn [fst snd trace] in *.
        destruct IH as (m & Hs & Hb & Hm). exists (S m).
        rewrite Hs, snapshots_app, snapshots_call_events, Htr.
        rewrite (reported_succ t m), <- app_assoc.
        repeat split; cbn [length]; try lia.
        intros Hquiet. rewrite Hm by done. reflexivity.
      * exists 1%nat. unfold yielded, ending_of, world_of.
        cbn [fst snd trace length failures].
        rewrite snapshots_app, snapshots_call_events, Htr.
        repeat split; try lia. intros Hquiet. by specialize (Hq Hquiet).
    + exists O. unfold yielded, ending_of, world_of. cbn.
      rewrite Htr, reported_zero, app_nil_r. repeat split; lia.
    + exists O. unfold yielded, ending_of, world_of. cbn.
      rewrite Htr, reported_zero, app_nil_r. repeat split; lia.
Qed.

(** The part before the loop logs nothing and calls nothing, and the ticker
    it makes has the callback and the description given, and the total
    given if one is. *)
Lemma prologue_any (inp : @Input T E) callback (nt : option Z) d w :
  trace (snd (prologue inp callback nt d w)) = trace w
  /\ forall t f, fst (prologue inp callback nt d w) = Returned (t, f) ->
       exists total, t = __init__ callback total d
                     /\ forall n, nt = Some n -> total = n.
Proof.
  destruct nt as [n|].
  - split; [reflexivity|]. intros t f Heq. cbn in Heq.
    injection Heq as <- _. exists n. split; [done|]. by intros ? [= ->].
  - unfold prologue, bind, ret.
    assert (Hl : trace (snd (input_list inp w)) = trace w).
    { destruct inp as [[xs|l]|l e]; cbn; [done|done|].
      unfold bind, gets. destruct (iterators w !! l); [|done].
      unfold last_request, bind, modify, raise, ret.
      by destruct (is_StopIteration e). }
    destruct (input_list inp w) as [[xs|e] w1]; cbn [fst snd] in *.
    + split; [done|]. intros t f [= <- _]. eexists. split; [done|].
      by intros ? [=].
    + split; [done|]. by intros t f [=].
Qed.

(** The callback is called once for each item the pass gave, and at most
    once more, which can only be when the pass ended by an exception: the
    call that raised.  When the callback does not raise it is called exactly
    once for each item, also when the pass was ended by an exception of the
    input's iterator.  The calls carry the counts 1, 2, ... in order. *)
Theorem callback_calls_per_item (inp : @Input T E) callback (nt : option Z)
    d w (fuel : nat) :
  let r := consume fuel (progress_iterable inp callback nt d) w in
  exists (total : Z) (m : nat),
    snapshots (trace (world_of r))
    = snapshots (trace w) ++ reported (__init__ callback total d) m
    /\ (forall n, nt = Some n -> total = n)
    /\ (length (yielded r) <= m
        <= length (yielded r) + failures (ending_of r))%nat
    /\ (quiet callback -> m = length (yielded r)).
Proof.
  cbn zeta. unfold progress_iterable. destruct fuel as [|fuel].
  - exists (default 0 nt), O. cbn. rewrite reported_zero, app_nil_r.
    repeat split; try lia. by intros n ->.
  - destruct (prologue_any inp callback nt d w) as (Htr & Ht).
    cbn [consume gen_next].
    destruct (prologue inp callback nt d w) as [[[t f]|e] w0];
      cbn [fst snd] in *.
    + destruct (Ht t f eq_refl) as (total & -> & Hn).
      pose proof (consume_feed_calls (S fuel) (__init__ callback total d) f w0)
        as H. cbn zeta in H. cbn [consume gen_next] in H.
      destruct H as (m & Hs & Hb & Hq). exists total, m.
      rewrite <- Htr. split; [exact Hs|]. split; [exact Hn|].
      split; [exact Hb | exact Hq].
    + exists (default 0 nt), O. unfold yielded, ending_of, world_of. cbn.
      rewrite Htr, reported_zero, app_nil_r.
      repeat split; try lia. by intros n ->.
Qed.

(** A pass over a suspended generator whose iterator raises [e] after the
    elements [xs], with a callback that does not raise. *)
Lemma consume_risky (l : nat) (e : E) xs : forall t w (fuel : nat),
  quiet (_callback t) -> iterators w !! l = Some xs ->
  is_StopIteration e = false -> (length xs < fuel)%nat ->
  exists w1,
    consume fuel (Suspended t (Risky l e)) w = (xs, Failed e, Finished, w1)
    /\ snapshots (trace w1) = snapshots (trace w) ++ reported t (length xs)
    /\ iterators w1 !! l = None.
Proof.
  induction xs as [|x xs IH]; intros t w fuel Hq Hl He Hf;
    (destruct fuel as [|fuel]; [cbn in Hf; lia|]);
    cbn [consume gen_next]; unfold loop, feed_next, bind, gets; rewrite Hl.
  - unfold last_request, bind, modify, raise. rewrite He.
    unfold leaving_generator. rewrite He.
    exists (finish_iterator l w). split; [reflexivity|].
    cbn [length trace finish_iterator iterators].
    rewrite reported_zero, app_nil_r. split; [done|].
    apply lookup_delete_eq.
  - unfold modify, ret.
    destruct (call_quiet t (set_remaining l xs w) Hq) as (u & tr & Hc & Hs).
    rewrite Hc.
    destruct (IH (add_complete 1 t)
                (mkWorld (iterators (set_remaining l xs w)) tr u) fuel)
      as (w1 & Hcons & Hs1 & Hnone);
      [done | cbn; by rewrite lookup_insert_eq | done | cbn in Hf; lia |].
    rewrite Hcons. exists w1. split; [reflexivity|]. split; [|done].
    rewrite Hs1. cbn [trace length]. rewrite Hs. cbn [set_remaining trace].
    by rewrite (reported_succ t (length xs)), <- app_assoc.
Qed.

(** When the input's iterator raises [e], not a [StopIteration], after the
    elements [xs], and the callback does not raise: with an explicit total
    the pass gives the elements [xs], then [e] comes out of the generator;
    the callback was called once for each element and not for the
    exception; the iterator is finished. *)
Theorem raising_input_ends_pass (l : nat) (e : E) xs callback (n : Z) d w
    (fuel : nat) :
  quiet callback -> iterators w !! l = Some xs ->
  is_StopIteration e = false -> (length xs < fuel)%nat ->
  let r := consume fuel (progress_iterable (Faulty l e) callback (Some n) d) w in
  yielded r = xs /\ ending_of r = Failed e /\ generator_of r = Finished
  /\ snapshots (trace (world_of r))
     = snapshots (trace w) ++ reported (__init__ callback n d) (length xs)
  /\ iterators (world_of r) !! l = None.
Proof.
  intros Hq Hl He Hf. cbn zeta. unfold progress_iterable.
  destruct (consume_risky l e xs (__init__ callback n d) w fuel Hq Hl He Hf)
    as (w1 & Hc & Hs & Hn).
  destruct fuel as [|fuel]; [lia|]. cbn [consume gen_next] in *.
  unfold prologue, bind, ret. cbn [input_iter]. rewrite Hc. by repeat split.
Qed.

End GeneratorPasses.

(** * These statements at concrete inputs *)

(** The scenario of total 3, description ["Loading "] and three ticks. *)
Lemma log_lines_alternate_with_callbacks_witness :
  "Loading " <> ""
  /\ trace (snd (perform_all (repeat (Increment 1) 3)
             (mkTicker (Some counting_handler) "Loading " 3 0, empty_world)))
     = [LogInfo "Loading 1/3"; Callback (snapshot "Loading " 3 1);
        LogInfo "Loading 2/3"; Callback (snapshot "Loading " 3 2);
        LogInfo "Loading 3/3"; Callback (snapshot "Loading " 3 3)].
Proof.
  assert (Hd : "Loading " <> "") by discriminate.
  split; [exact Hd|].
  exact (log_lines_alternate_with_callbacks (T:=Z) counting_handler
           "Loading " 3 0 empty_world 3 Hd).
Defined.

(** A callback that always raises, on a tick of 2 from the count 5. *)
Lemma raising_callback_keeps_count_witness :
  snd (failing_handler (snapshot "" 9 (5 + 2)) (user empty_world))
  = Some "boom"
  /\ fst (__call__ 2 (mkTicker (Some failing_handler) "" 9 5, empty_world))
     = Raised "boom"
  /\ _num_complete
       (fst (snd (__call__ 2
          (mkTicker (Some failing_handler) "" 9 5, empty_world)))) = 7.
Proof.
  assert (He : snd (failing_handler (snapshot "" 9 (5 + 2)) (user empty_world))
               = Some "boom") by reflexivity.
  split; [exact He|].
  destruct (raising_callback_keeps_count (T:=Z) failing_handler "" 9 5 2
              empty_world "boom" He) as (H1 & H2 & _).
  split; [exact H1|]. rewrite H2. reflexivity.
Defined.


(** Two items taken of [iter([1, 2, 3])]: the iterator has [3] left. *)
Lemma partial_pass_reads_no_further_witness :
  quiet (Some counting_handler)
  /\ (2 <= length (elements (Iterator O) iterator_world))%nat
  /\ yielded (consume 2 (progress_iterable (Iterator O)
                (Some counting_handler) (Some 3) "") iterator_world)
     = [1; 2]
  /\ elements (Iterator O)
       (world_of (consume 2 (progress_iterable (Iterator O)
          (Some counting_handler) (Some 3) "") iterator_world))
     = [3].
Proof.
  assert (Hq : quiet (Some counting_handler)) by (intros p u; reflexivity).
  assert (Hk : (2 <= length (elements (Iterator O) iterator_world))%nat)
    by (vm_compute; lia).
  split; [exact Hq|]. split; [exact Hk|].
  destruct (partial_pass_reads_no_further (Iterator O) (Some counting_handler)
              3 "" iterator_world 2 Hq Hk) as (H1 & _ & H3 & _).
  split; [exact H1 | exact H3].
Defined.

(** [iter([1, 2, 3])] and a callback that raises [StopIteration]: what
    comes out of the generator is [RuntimeError], and [1] is lost. *)
Lemma failing_callback_loses_item_witness :
  elements (Iterator O) iterator_world = [1; 2; 3]
  /\ snd (stopping_handler (snapshot "" 3 1) (user iterator_world))
     = Some "StopIteration"
  /\ ending_of (consume 4 (progress_iterable (Iterator O)
                  (Some stopping_handler) (Some 3) "") iterator_world)
     = Failed "RuntimeError"
  /\ elements (Iterator O)
       (world_of (consume 4 (progress_iterable (Iterator O)
          (Some stopping_handler) (Some 3) "") iterator_world))
     = [2; 3].
Proof.
  assert (Hel : elements (Iterator O) iterator_world = [1; 2; 3])
    by (vm_compute; reflexivity).
  assert (He : snd (stopping_handler (snapshot "" 3 1) (user iterator_world))
               = Some "StopIteration") by reflexivity.
  split; [exact Hel|]. split; [exact He|].
  destruct (failing_callback_loses_item (Iterator O) stopping_handler 3 ""
              iterator_world 3 1 [2; 3] "StopIteration" Hel He)
    as (_ & H2 & _ & H4).
  split; [exact H2 | exact H4].
Defined.

(** An iterator that gives 1, 2, 3 and then raises ["ValueError"], with a
    callback that counts its calls: three items, three calls, and the
    exception. *)
Lemma raising_input_ends_pass_witness :
  quiet (Some counting_handler)
  /\ iterators iterator_world !! O = Some [1; 2; 3]
  /\ is_StopIteration "ValueError" = false
  /\ (length [1%Z; 2%Z; 3%Z] < 5)%nat
  /\ yielded (consume 5 (progress_iterable (Faulty O "ValueError")
                (Some counting_handler) (Some 3) "") iterator_world)
     = [1; 2; 3]
  /\ ending_of (consume 5 (progress_iterable (Faulty O "ValueError")
                  (Some counting_handler) (Some 3) "") iterator_world)
     = Failed "ValueError"
  /\ snapshots (trace (world_of (consume 5 (progress_iterable
                  (Faulty O "ValueError") (Some counting_handler) (Some 3) "")
                  iterator_world)))
     = [snapshot "" 3 1; snapshot "" 3 2; snapshot "" 3 3].
Proof.
  assert (Hq : quiet (Some counting_handler)) by (intros p u; reflexivity).
  assert (Hl : iterators iterator_world !! O = Some [1; 2; 3])
    by (vm_compute; reflexivity).
  assert (He : is_StopIteration "ValueError" = false) by reflexivity.
  assert (Hf : (length [1%Z; 2%Z; 3%Z] < 5)%nat) by (cbn; lia).
  split; [exact Hq|]. split; [exact Hl|]. split; [exact He|].
  split; [exact Hf|].
  destruct (raising_input_ends_pass O "ValueError" [1; 2; 3]
              (Some counting_handler) 3 "" iterator_world 5 Hq Hl He Hf)
    as (H1 & H2 & _ & H4 & _).
  split; [exact H1|]. split; [exact H2 | exact H4].
Defined.

